(** * Checkout coordinator of [refactor_solid.py]

    A shallow embedding of the checkout script: the [Order] data class, the
    two capability interfaces ([IPaymentProcessor], [INotificationService]),
    their concrete plug-ins, the coordinator [CheckoutService.run_checkout]
    and the module-level script, followed by the properties of the
    coordinator.

    Python passes the order by reference: the processor, the coordinator and
    the notifier all act on one object.  The embedding threads that one
    object through every call, together with the records handed to the
    [logging] module, and keeps both when a call ends in an exception.
    Formatting a value inside an f-string is a call like any other and may
    raise; for an [int] it does so beyond the digit limit of [str]. *)

From Stdlib Require Import Ascii String List ZArith Bool Lia DecimalString.
Import ListNotations.
Local Open Scope string_scope.

(** ** Python values *)

(** An exception instance: its class name and its message. *)
Inductive PyException : Type :=
  | Exception (cls : string) (msg : string).

(** How a call ends: it returns a value or it raises. *)
Inductive Outcome (A : Type) : Type :=
  | Return (a : A)
  | Raise (e : PyException).
Arguments Return {A} a.
Arguments Raise {A} e.

Definition raised {A : Type} (r : Outcome A) : bool :=
  match r with
  | Return _ => false
  | Raise _ => true
  end.

(** [format(value, "")], what an f-string field [{value}] expands to.  It
    calls the value's [__format__], which may raise. *)
Class PyFormat (A : Type) := py_format : A -> Outcome string.

(** A [str] formats as itself. *)
#[export] Instance PyFormat_str : PyFormat string := fun s => Return s.

(** [sys.get_int_max_str_digits()] as the interpreter starts (CPython 3.11
    and later, unless the limit is reconfigured). *)
Definition int_max_str_digits : Z := 4300.

(** The number of decimal digits of an [int], sign apart. *)
Definition decimal_digits (z : Z) : Z :=
  Z.of_nat
    (Decimal.nb_digits
       (match Z.to_int z with
        | Decimal.Pos d => d
        | Decimal.Neg d => d
        end)).

Definition int_too_long : PyException :=
  Exception "ValueError"
    "Exceeds the limit (4300 digits) for integer string conversion".

(** [str] of a Python [int]: decimal digits, with a leading minus sign; an
    [int] of more digits than the limit is refused with [ValueError]. *)
#[export] Instance PyFormat_int : PyFormat Z :=
  fun z =>
    if (decimal_digits z <=? int_max_str_digits)%Z
    then Return (NilZero.string_of_int (Z.to_int z))
    else Raise int_too_long.

(** ** The [logging] module, as far as the script configures it *)

Module Logging.

Inductive Level : Type := DEBUG | INFO | WARNING | ERROR | CRITICAL.

Definition levelno (l : Level) : Z :=
  match l with
  | DEBUG => 10
  | INFO => 20
  | WARNING => 30
  | ERROR => 40
  | CRITICAL => 50
  end.

(** One emitted line, [%(levelname)s - %(name)s - %(message)s]; the
    leading [%(asctime)s] is wall-clock time and is left out. *)
Record LogRecord : Type := mkLogRecord {
  levelname : Level;
  name : string;
  message : string
}.

(** [logging.basicConfig(level = logging.INFO, ...)] *)
Definition basicConfig_level : Level := INFO.

Record Logger : Type := getLogger { logger_name : string }.

Definition isEnabledFor (l : Level) : bool :=
  (levelno basicConfig_level <=? levelno l)%Z.

Definition log (lg : Logger) (l : Level) (msg : string) : list LogRecord :=
  if isEnabledFor l then [mkLogRecord l (logger_name lg) msg] else [].

Definition info (lg : Logger) (msg : string) : list LogRecord := log lg INFO msg.
Definition error (lg : Logger) (msg : string) : list LogRecord := log lg ERROR msg.

End Logging.
Import Logging.

Definition LOGGER : Logger := getLogger "Checkout".
Definition LOGGER2 : Logger := getLogger "Notifikasi".
Definition LOGGER3 : Logger := getLogger "Metode Pembayaran".

(** ** The [Order] data class *)

(** The annotation of [total_price] is [float] and the script passes [int]s;
    a data class checks neither, so the field is kept generic. *)
Record Order (Price : Type) : Type := mkOrder {
  customer_name : string;
  total_price : Price;
  status : string
}.
Arguments mkOrder {Price} customer_name total_price status.
Arguments customer_name {Price} o.
Arguments total_price {Price} o.
Arguments status {Price} o.

(** The generated [__init__]: [status] is a keyword with default ["open"]. *)
Definition Order_init {Price : Type}
    (customer_name : string) (total_price : Price) (status : option string)
    : Order Price :=
  mkOrder customer_name total_price
    (match status with Some s => s | None => "open" end).

(** [order.status = s] *)
Definition set_status {Price : Type} (s : string) (o : Order Price) : Order Price :=
  mkOrder (customer_name o) (total_price o) s.

(** ** Methods of the plug-ins *)

(** What one call of a plug-in method on the order does: how it ends, the
    state it leaves the order object in, and the records it logs. *)
Record MethodResult (Price A : Type) : Type := mkResult {
  outcome : Outcome A;
  order_after : Order Price;
  emitted : list LogRecord
}.
Arguments mkResult {Price A} outcome order_after emitted.
Arguments outcome {Price A} m.
Arguments order_after {Price A} m.
Arguments emitted {Price A} m.

Definition Method (Price A : Type) : Type := Order Price -> MethodResult Price A.

(** [class IPaymentProcessor(ABC)]: one abstract method, [process].  Both
    implementations annotate the result as [bool], and the coordinator only
    tests it with [if]; the result is a [bool] here. *)
Class IPaymentProcessor (Price P : Type) : Type :=
  process : P -> Method Price bool.

(** [class INotificationService(ABC)]: one abstract method, [send]. *)
Class INotificationService (Price N : Type) : Type :=
  send : N -> Method Price unit.

(** *** Concrete plug-ins *)

Inductive CreditCardProcessor : Type := CreditCardProcessor_init.

#[export] Instance CreditCardProcessor_process {Price : Type}
    : IPaymentProcessor Price CreditCardProcessor :=
  fun self order =>
    mkResult (Return true) order
      (info LOGGER3 "Payment: Memproses Kartu Kredit.").

Inductive EmailNotifier : Type := EmailNotifier_init.

#[export] Instance EmailNotifier_send {Price : Type}
    : INotificationService Price EmailNotifier :=
  fun self order =>
    match py_format (customer_name order) with
    | Return name =>
        mkResult (Return tt) order
          (info LOGGER2 ("Notif: Mengirim email konfirmasi ke " ++ name ++ "."))
    | Raise e => mkResult (Raise e) order []
    end.

Inductive QrisProcessor : Type := QrisProcessor_init.

#[export] Instance QrisProcessor_process {Price : Type}
    : IPaymentProcessor Price QrisProcessor :=
  fun self order =>
    mkResult (Return true) order
      (info LOGGER3 "Payment: Memproses QRIS.").

(** ** The interpreter state seen by one [run_checkout] call *)

(** The calls the coordinator issues on its plug-ins, each with the state of
    the order object at the moment of the call.  This trace is bookkeeping
    of the model: no plug-in can write to it. *)
Inductive Invocation (Price : Type) : Type :=
  | CallProcess (o : Order Price)
  | CallSend (o : Order Price).
Arguments CallProcess {Price} o.
Arguments CallSend {Price} o.

Record World (Price : Type) : Type := mkWorld {
  w_order : Order Price;              (* the object bound to [order] *)
  w_log : list LogRecord;             (* records emitted so far *)
  w_calls : list (Invocation Price)   (* plug-in calls issued so far *)
}.
Arguments mkWorld {Price} w_order w_log w_calls.
Arguments w_order {Price} w.
Arguments w_log {Price} w.
Arguments w_calls {Price} w.

(** State and exceptions: a raise skips the rest of the body and keeps every
    effect made before it. *)
Definition M (Price A : Type) : Type := World Price -> Outcome A * World Price.

Definition ret {Price A : Type} (a : A) : M Price A :=
  fun w => (Return a, w).

Definition bind {Price A B : Type} (c : M Price A) (k : A -> M Price B) : M Price B :=
  fun w =>
    match c w with
    | (Return a, w') => k a w'
    | (Raise e, w') => (Raise e, w')
    end.

Declare Scope py_scope.
Delimit Scope py_scope with py.
Notation "x <- c ;; k" := (bind c (fun x => k))
  (at level 61, c at next level, right associativity) : py_scope.
Notation "c ;; k" := (bind c (fun _ => k))
  (at level 61, right associativity) : py_scope.
Local Open Scope py_scope.

(** Evaluating an expression that touches no state but may raise. *)
Definition eval {Price A : Type} (r : Outcome A) : M Price A :=
  fun w => (r, w).

(** Reading the object bound to [order]. *)
Definition get_order {Price : Type} : M Price (Order Price) :=
  fun w => (Return (w_order w), w).

(** [order.status = s] *)
Definition assign_status {Price : Type} (s : string) : M Price unit :=
  fun w => (Return tt, mkWorld (set_status s (w_order w)) (w_log w) (w_calls w)).

(** Handing records to the logging module. *)
Definition emit {Price : Type} (rs : list LogRecord) : M Price unit :=
  fun w => (Return tt, mkWorld (w_order w) (w_log w ++ rs)%list (w_calls w)).

(** Calling a plug-in method on the order: the call is entered in the trace,
    the method runs on the current object, and its effects become visible to
    the caller whether it returns or raises. *)
Definition invoke {Price A : Type}
    (tag : Order Price -> Invocation Price) (m : Method Price A) : M Price A :=
  fun w =>
    let r := m (w_order w) in
    (outcome r,
     mkWorld (order_after r) (w_log w ++ emitted r)%list
       (w_calls w ++ [tag (w_order w)])%list).

(** ** The coordinator *)

Record CheckoutService (P N : Type) : Type := CheckoutService_init {
  payment_processor : P;
  notifier : N
}.
Arguments CheckoutService_init {P N} payment_processor notifier.
Arguments payment_processor {P N} c.
Arguments notifier {P N} c.

(** [f"Memulai checkout untuk {order.customer_name}. Total: {order.total_price}"]:
    the two fields are formatted from left to right, and the string exists
    only if both format. *)
Definition start_message {Price : Type} {fmt : PyFormat Price} (order : Order Price)
    : Outcome string :=
  match py_format (customer_name order) with
  | Raise e => Raise e
  | Return name =>
      match py_format (total_price order) with
      | Raise e => Raise e
      | Return total =>
          Return ("Memulai checkout untuk " ++ name ++ ". Total: " ++ total)
      end
  end.

Definition run_checkout {Price P N : Type}
    {fmt : PyFormat Price}
    {pay : IPaymentProcessor Price P} {notif : INotificationService Price N}
    (self : CheckoutService P N) : M Price bool :=
  order <- get_order ;;
  message <- eval (start_message order) ;;
  emit (info LOGGER message) ;;
  payment_success <- invoke CallProcess (process (payment_processor self)) ;;
  if payment_success : bool then
    assign_status "paid" ;;
    invoke CallSend (send (notifier self)) ;;
    emit (info LOGGER "Checkout Sukses. Status pesanan: PAID") ;;
    ret true
  else
    emit (error LOGGER "Pembayaran gagal. Transaksi dibatalkan.") ;;
    ret false.

(** ** The module-level script *)

Definition andi_order : Order Z := Order_init "Andi" 500000%Z None.
Definition email_service : EmailNotifier := EmailNotifier_init.
Definition cc_processor : CreditCardProcessor := CreditCardProcessor_init.
Definition checkout_cc : CheckoutService CreditCardProcessor EmailNotifier :=
  CheckoutService_init cc_processor email_service.

Definition budi_order : Order Z := Order_init "Budi" 100000%Z None.
Definition qris_processor : QrisProcessor := QrisProcessor_init.
Definition checkout_qris : CheckoutService QrisProcessor EmailNotifier :=
  CheckoutService_init qris_processor email_service.

(** What is left when the script stops: the lines printed, the records
    logged, the plug-in calls made and the two order objects
    ([budi_order] exists only once the second half is reached). *)
Record Script : Type := mkScript {
  stdout : list string;
  logged : list LogRecord;
  invoked : list (Invocation Z);
  andi_final : Order Z;
  budi_final : option (Order Z)
}.

Definition newline : string := String "010"%char EmptyString.

(** An interpreter that holds [o] and has logged and called nothing yet. *)
Definition fresh {Price : Type} (o : Order Price) : World Price := mkWorld o [] [].

(** Scenario 1: [checkout_cc.run_checkout(andi_order)] in a fresh interpreter. *)
Definition scenario1 : Outcome bool * World Z :=
  run_checkout checkout_cc (fresh andi_order).

(** Scenario 2: [checkout_qris.run_checkout(budi_order)], after scenario 1. *)
Definition scenario2 : Outcome bool * World Z :=
  run_checkout checkout_qris
    (mkWorld budi_order (w_log (snd scenario1)) (w_calls (snd scenario1))).

(** The whole script; both return values are discarded, an exception would
    stop it where it is raised. *)
Definition main : Outcome unit * Script :=
  let out1 := ["--- Skenario 1: Credit Card ---"] in
  let (r1, w1) := scenario1 in
  match r1 with
  | Raise e => (Raise e, mkScript out1 (w_log w1) (w_calls w1) (w_order w1) None)
  | Return _ =>
      let out2 :=
        (out1 ++ [(newline ++ "--- Skenario 2: Pembuktian OCP (QRIS) ---")%string])%list in
      let (r2, w2) := scenario2 in
      (match r2 with Raise e => Raise e | Return _ => Return tt end,
       mkScript out2 (w_log w2) (w_calls w2) (w_order w1) (Some (w_order w2)))
  end.

(** ** Plug-ins that are not in the script

    The interfaces admit any class with the required method.  The two below
    stand for plug-ins a caller may inject: one that declines the payment,
    one whose gateway call fails with an exception. *)

Inductive DecliningProcessor : Type := DecliningProcessor_init.

#[export] Instance DecliningProcessor_process {Price : Type}
    : IPaymentProcessor Price DecliningProcessor :=
  fun self order =>
    mkResult (Return false) order (info LOGGER3 "Payment: Ditolak.").

Inductive FailingProcessor : Type := FailingProcessor_init.

Definition gateway_down : PyException := Exception "RuntimeError" "gateway down".

#[export] Instance FailingProcessor_process {Price : Type}
    : IPaymentProcessor Price FailingProcessor :=
  fun self order => mkResult (Raise gateway_down) order [].

Definition checkout_declining : CheckoutService DecliningProcessor EmailNotifier :=
  CheckoutService_init DecliningProcessor_init email_service.

Definition checkout_failing : CheckoutService FailingProcessor EmailNotifier :=
  CheckoutService_init FailingProcessor_init email_service.

(** ** Observations on a run *)

(** The plug-in calls made between two states of one interpreter. *)
Definition new_calls {Price : Type} (w w' : World Price) : list (Invocation Price) :=
  skipn (length (w_calls w)) (w_calls w').

(** The records logged between two states of one interpreter. *)
Definition new_log {Price : Type} (w w' : World Price) : list LogRecord :=
  skipn (length (w_log w)) (w_log w').

(** The orders handed to [send], as the notifier saw them. *)
Fixpoint sent_orders {Price : Type} (cs : list (Invocation Price)) : list (Order Price) :=
  match cs with
  | [] => []
  | CallSend o :: cs' => o :: sent_orders cs'
  | CallProcess _ :: cs' => sent_orders cs'
  end.

Definition send_count {Price : Type} (cs : list (Invocation Price)) : nat :=
  length (sent_orders cs).

(** The result of the [process] call that [run_checkout] makes from [w]. *)
Definition payment {Price P N : Type} {pay : IPaymentProcessor Price P}
    (self : CheckoutService P N) (w : World Price) : MethodResult Price bool :=
  process (payment_processor self) (w_order w).

(** The order once the coordinator has marked it, as handed to [send]. *)
Definition paid_order {Price P N : Type} {pay : IPaymentProcessor Price P}
    (self : CheckoutService P N) (w : World Price) : Order Price :=
  set_status "paid" (order_after (payment self w)).

(** The result of the [send] call on the success path. *)
Definition notification {Price P N : Type}
    {pay : IPaymentProcessor Price P} {notif : INotificationService Price N}
    (self : CheckoutService P N) (w : World Price) : MethodResult Price unit :=
  send (notifier self) (paid_order self w).

(** The three records [run_checkout] itself writes; the first one only if
    its message can be formatted. *)
Definition start_record {Price : Type} {fmt : PyFormat Price} (o : Order Price)
    : list LogRecord :=
  match start_message o with
  | Return message => info LOGGER message
  | Raise _ => []
  end.

Definition success_record : list LogRecord :=
  info LOGGER "Checkout Sukses. Status pesanan: PAID".

Definition failure_record : list LogRecord :=
  error LOGGER "Pembayaran gagal. Transaksi dibatalkan.".

(** Two calls in a row on the same order object:
    [first = self.run_checkout(order); second = self.run_checkout(order)]. *)
Definition run_checkout_twice {Price P N : Type}
    {fmt : PyFormat Price}
    {pay : IPaymentProcessor Price P} {notif : INotificationService Price N}
    (self : CheckoutService P N) : M Price (bool * bool) :=
  first <- run_checkout self ;;
  second <- run_checkout self ;;
  ret (first, second).

(** The start message of the order can be formatted. *)
Definition start_formats {Price : Type} {fmt : PyFormat Price} (o : Order Price)
    : Prop :=
  raised (start_message o) = false.

(** The call got as far as calling [process] on the order it was given. *)
Definition reaches_process {Price P N : Type}
    {fmt : PyFormat Price}
    {pay : IPaymentProcessor Price P} {notif : INotificationService Price N}
    (self : CheckoutService P N) (w : World Price) : Prop :=
  In (CallProcess (w_order w)) (new_calls w (snd (run_checkout self w))).

(** The call got as far as calling [send] on the order it had marked. *)
Definition reaches_send {Price P N : Type}
    {fmt : PyFormat Price}
    {pay : IPaymentProcessor Price P} {notif : INotificationService Price N}
    (self : CheckoutService P N) (w : World Price) : Prop :=
  In (CallSend (paid_order self w)) (new_calls w (snd (run_checkout self w))).

(** ** What the interfaces expect of a plug-in

    The doc strings give [process] a [bool] result that reports success or
    failure, and both methods take the order for the information it holds.
    Python enforces none of this, so the properties say which part they
    rely on. *)

(** The method always returns; it never raises. *)
Definition returns_normally {Price A : Type} (m : Method Price A) : Prop :=
  forall o, raised (outcome (m o)) = false.

(** The method leaves the order object as it found it. *)
Definition read_only {Price A : Type} (m : Method Price A) : Prop :=
  forall o, order_after (m o) = o.

(** The method does not touch the [status] field. *)
Definition keeps_status {Price A : Type} (m : Method Price A) : Prop :=
  forall o, status (order_after (m o)) = status o.

(** The processor accepts every payment. *)
Definition always_succeeds {Price : Type} (m : Method Price bool) : Prop :=
  forall o, outcome (m o) = Return true.

(** ** Further plug-ins and observations

    A notifier whose delivery fails, the calls to [process] in a trace, the
    error records in a log, and a caller that checks the same order out
    [n] times, going on whatever each call returns or raises. *)

Inductive FailingNotifier : Type := FailingNotifier_init.

Definition smtp_down : PyException := Exception "ConnectionError" "smtp down".

#[export] Instance FailingNotifier_send {Price : Type}
    : INotificationService Price FailingNotifier :=
  fun self order => mkResult (Raise smtp_down) order [].

Definition checkout_unnotified : CheckoutService CreditCardProcessor FailingNotifier :=
  CheckoutService_init cc_processor FailingNotifier_init.

Definition checkout_declining_unnotified
    : CheckoutService DecliningProcessor FailingNotifier :=
  CheckoutService_init DecliningProcessor_init FailingNotifier_init.

(** An order whose price has 4301 digits. *)
Definition huge_order : Order Z := Order_init "Huge" (10 ^ 4300)%Z None.

(** The same order, already paid. *)
Definition huge_paid_order : Order Z := set_status "paid" huge_order.

(** The same interpreter with [order.status] set to [s] beforehand. *)
Definition with_status {Price : Type} (s : string) (w : World Price) : World Price :=
  mkWorld (set_status s (w_order w)) (w_log w) (w_calls w).

(** The orders handed to [process], as the processor saw them. *)
Fixpoint processed_orders {Price : Type} (cs : list (Invocation Price))
    : list (Order Price) :=
  match cs with
  | [] => []
  | CallProcess o :: cs' => o :: processed_orders cs'
  | CallSend _ :: cs' => processed_orders cs'
  end.

Definition process_count {Price : Type} (cs : list (Invocation Price)) : nat :=
  length (processed_orders cs).

Definition is_error (r : LogRecord) : bool :=
  match levelname r with
  | ERROR => true
  | _ => false
  end.

(** The method writes no record of level [ERROR]. *)
Definition logs_no_error {Price A : Type} (m : Method Price A) : Prop :=
  forall o, existsb is_error (emitted (m o)) = false.

(** The interpreter after [n] calls of [self.run_checkout(order)] on the
    same order object. *)
Fixpoint run_checkout_times {Price P N : Type}
    {fmt : PyFormat Price}
    {pay : IPaymentProcessor Price P} {notif : INotificationService Price N}
    (self : CheckoutService P N) (n : nat) (w : World Price) : World Price :=
  match n with
  | O => w
  | S k => run_checkout_times self k (snd (run_checkout self w))
  end.

(** * Properties *)

(** ** Lists and orders *)

Lemma skipn_length_app {A : Type} (l d : list A) :
  skipn (length l) (l ++ d) = d.
Proof.
  induction l as [| x l IH]; simpl; [reflexivity | exact IH].
Qed.

Lemma skipn_length_self {A : Type} (l : list A) :
  skipn (length l) l = [].
Proof.
  induction l as [| x l IH]; simpl; [reflexivity | exact IH].
Qed.

Lemma set_status_same {Price : Type} (o : Order Price) :
  set_status (status o) o = o.
Proof. destruct o; reflexivity. Qed.

Lemma logger_writes_info_and_error (lg : Logger) (msg : string) :
  info lg msg = [mkLogRecord INFO (logger_name lg) msg] /\
  error lg msg = [mkLogRecord ERROR (logger_name lg) msg].
Proof. split; reflexivity. Qed.

(** The start message is made of the name and the price only. *)
Lemma start_message_set_status {Price : Type} {fmt : PyFormat Price}
    (s : string) (o : Order Price) :
  start_message (set_status s o) = start_message o.
Proof. reflexivity. Qed.

(** ** One call of [run_checkout], path by path *)

Section RunCheckout.

Context {Price P N : Type}.
Context {fmt : PyFormat Price}.
Context {pay : IPaymentProcessor Price P} {notif : INotificationService Price N}.
Variable self : CheckoutService P N.
Variable w : World Price.

(** The start message cannot be formatted: the call ends there, before
    anything is logged or called. *)
Lemma run_checkout_unformatted (e : PyException) :
  start_message (w_order w) = Raise e ->
  run_checkout self w = (Raise e, w).
Proof.
  intros Hf.
  unfold run_checkout, bind, get_order, eval. rewrite Hf. reflexivity.
Qed.

(** The payment is declined: the coordinator leaves the order alone, calls
    no notifier, writes an error record and returns [False]. *)
Lemma run_checkout_declined (msg : string) :
  start_message (w_order w) = Return msg ->
  outcome (payment self w) = Return false ->
  run_checkout self w =
    (Return false,
     mkWorld (order_after (payment self w))
       (w_log w ++ info LOGGER msg ++ emitted (payment self w)
          ++ failure_record)%list
       (w_calls w ++ [CallProcess (w_order w)])%list).
Proof.
  intros Hf Hp.
  unfold run_checkout, bind, get_order, eval, emit, invoke, assign_status, ret.
  rewrite Hf. unfold payment in Hp |- *. cbn [w_order w_log w_calls].
  rewrite Hp. cbn [w_order w_log w_calls].
  rewrite <- !app_assoc. reflexivity.
Qed.

(** The payment succeeds and the notifier returns. *)
Lemma run_checkout_paid (msg : string) :
  start_message (w_order w) = Return msg ->
  outcome (payment self w) = Return true ->
  raised (outcome (notification self w)) = false ->
  run_checkout self w =
    (Return true,
     mkWorld (order_after (notification self w))
       (w_log w ++ info LOGGER msg ++ emitted (payment self w)
          ++ emitted (notification self w) ++ success_record)%list
       (w_calls w ++ [CallProcess (w_order w); CallSend (paid_order self w)])%list).
Proof.
  intros Hf Hp Hs.
  unfold run_checkout, bind, get_order, eval, emit, invoke, assign_status, ret.
  rewrite Hf. unfold notification, paid_order, payment in Hp, Hs |- *.
  cbn [w_order w_log w_calls]. rewrite Hp. cbn [w_order w_log w_calls].
  destruct (outcome (send _ _)) as [[] | e]; [| discriminate Hs].
  cbn [w_order w_log w_calls]. rewrite <- !app_assoc. reflexivity.
Qed.

(** [process] raises: nothing in [run_checkout] catches it. *)
Lemma run_checkout_process_raises (msg : string) (e : PyException) :
  start_message (w_order w) = Return msg ->
  outcome (payment self w) = Raise e ->
  run_checkout self w =
    (Raise e,
     mkWorld (order_after (payment self w))
       (w_log w ++ info LOGGER msg ++ emitted (payment self w))%list
       (w_calls w ++ [CallProcess (w_order w)])%list).
Proof.
  intros Hf Hp.
  unfold run_checkout, bind, get_order, eval, emit, invoke, assign_status, ret.
  rewrite Hf. unfold payment in Hp |- *. cbn [w_order w_log w_calls].
  rewrite Hp. rewrite <- !app_assoc. reflexivity.
Qed.

(** [send] raises after a successful payment: the status is already
    ["paid"] and the success record is never written. *)
Lemma run_checkout_send_raises (msg : string) (e : PyException) :
  start_message (w_order w) = Return msg ->
  outcome (payment self w) = Return true ->
  outcome (notification self w) = Raise e ->
  run_checkout self w =
    (Raise e,
     mkWorld (order_after (notification self w))
       (w_log w ++ info LOGGER msg ++ emitted (payment self w)
          ++ emitted (notification self w))%list
       (w_calls w ++ [CallProcess (w_order w); CallSend (paid_order self w)])%list).
Proof.
  intros Hf Hp Hs.
  unfold run_checkout, bind, get_order, eval, emit, invoke, assign_status, ret.
  rewrite Hf. unfold notification, paid_order, payment in Hp, Hs |- *.
  cbn [w_order w_log w_calls]. rewrite Hp. cbn [w_order w_log w_calls].
  rewrite Hs. rewrite <- !app_assoc. reflexivity.
Qed.

End RunCheckout.

(** Splits a goal about [run_checkout self w] into the five ways the call
    can go (paid, [send] raises, declined, [process] raises, the start
    message does not format) and rewrites the call with the matching
    equation. *)
Ltac run_paths self w :=
  let Hf := fresh "Hfmt" in
  let Hp := fresh "Hpay" in
  let Hs := fresh "Hsend" in
  destruct (start_message (w_order w)) as [? | ?] eqn:Hf;
  [ destruct (outcome (payment self w)) as [[|] | ?] eqn:Hp;
    [ destruct (outcome (notification self w)) as [[] | ?] eqn:Hs;
      [ rewrite (run_checkout_paid self w _ Hf Hp)
          by (rewrite Hs; reflexivity)
      | rewrite (run_checkout_send_raises self w _ _ Hf Hp Hs) ]
    | rewrite (run_checkout_declined self w _ Hf Hp)
    | rewrite (run_checkout_process_raises self w _ _ Hf Hp) ]
  | rewrite (run_checkout_unformatted self w _ Hf) ].

(** Reduces [new_calls] and [new_log] once the final state is explicit. *)
Ltac since_start :=
  unfold new_calls, new_log; cbn [fst snd w_order w_calls w_log];
  rewrite ?skipn_length_app, ?skipn_length_self.

(** A call that reached [process] had formatted its start message. *)
Lemma reaches_process_formats {Price P N : Type}
    {fmt : PyFormat Price}
    {pay : IPaymentProcessor Price P} {notif : INotificationService Price N}
    (self : CheckoutService P N) (w : World Price) :
  reaches_process self w ->
  exists msg, start_message (w_order w) = Return msg.
Proof.
  unfold reaches_process.
  destruct (start_message (w_order w)) as [msg | e] eqn:Hf.
  - intros _. exists msg. reflexivity.
  - rewrite (run_checkout_unformatted self w e Hf). since_start.
    intros [].
Qed.

(** A call that reached [send] had formatted its start message and had
    [True] from [process]. *)
Lemma reaches_send_paid {Price P N : Type}
    {fmt : PyFormat Price}
    {pay : IPaymentProcessor Price P} {notif : INotificationService Price N}
    (self : CheckoutService P N) (w : World Price) :
  reaches_send self w ->
  (exists msg, start_message (w_order w) = Return msg) /\
  outcome (payment self w) = Return true.
Proof.
  unfold reaches_send.
  run_paths self w; since_start; intros Hin.
  - split; [eexists |]; reflexivity.
  - split; [eexists |]; reflexivity.
  - destruct Hin as [Hin | []]. discriminate Hin.
  - destruct Hin as [Hin | []]. discriminate Hin.
  - destruct Hin.
Qed.

(** ** The coordinator's contract *)

Section Coordinator.

Context {Price P N : Type}.
Context {fmt : PyFormat Price}.
Context {pay : IPaymentProcessor Price P} {notif : INotificationService Price N}.
Variable self : CheckoutService P N.
Variable w : World Price.


(** C2: when [run_checkout] returns [True] the order's status is ["paid"]
    after the call; when it returns [False] the status is what it was
    before the call, so an order that was ["open"] is still ["open"].
    Neither plug-in writes the status itself. *)
Theorem run_checkout_status :
  keeps_status (process (payment_processor self)) ->
  keeps_status (send (notifier self)) ->
  (fst (run_checkout self w) = Return true ->
     status (w_order (snd (run_checkout self w))) = "paid") /\
  (fst (run_checkout self w) = Return false ->
     status (w_order (snd (run_checkout self w))) = status (w_order w)) /\
  (fst (run_checkout self w) = Return false ->
     status (w_order w) = "open" ->
     status (w_order (snd (run_checkout self w))) = "open").
Proof.
  intros Hkp Hkn.
  assert (Hdeclined : status (order_after (payment self w)) = status (w_order w))
    by apply Hkp.
  assert (Hpaid : status (order_after (notification self w)) = "paid")
    by (unfold notification; rewrite Hkn; reflexivity).
  run_paths self w; cbn [fst snd w_order]; repeat split; intros Hr;
    try discriminate Hr.
  - exact Hpaid.
  - exact Hdeclined.
  - intros Hopen. rewrite Hdeclined. exact Hopen.
Qed.


(** C4: [run_checkout] writes no field of the order but [status]:
    [customer_name] and [total_price] are the same after every call, and
    when [process] returns [False] the whole order is as it was.  Both
    plug-ins only read the order. *)
Theorem run_checkout_frame :
  read_only (process (payment_processor self)) ->
  read_only (send (notifier self)) ->
  customer_name (w_order (snd (run_checkout self w))) = customer_name (w_order w) /\
  total_price (w_order (snd (run_checkout self w))) = total_price (w_order w) /\
  (outcome (payment self w) = Return false ->
     w_order (snd (run_checkout self w)) = w_order w).
Proof.
  intros Hrp Hrn.
  assert (Hpay : order_after (payment self w) = w_order w) by apply Hrp.
  assert (Hsend : order_after (notification self w) = set_status "paid" (w_order w)).
  { unfold notification. rewrite Hrn. unfold paid_order. rewrite Hpay. reflexivity. }
  run_paths self w; cbn [fst snd w_order]; rewrite ?Hsend, ?Hpay;
    repeat split; intros Hr; solve [reflexivity | discriminate Hr].
Qed.

End Coordinator.

(** A price of 4301 digits is more than [str] converts, so a checkout of
    such an order ends where the start message is built. *)
Lemma huge_order_unformatted :
  start_message (w_order (fresh huge_order)) = Raise int_too_long.
Proof. vm_compute. reflexivity. Qed.

Lemma huge_order_checkout :
  run_checkout checkout_cc (fresh huge_order) =
    (Raise int_too_long, fresh huge_order).
Proof.
  exact (run_checkout_unformatted checkout_cc (fresh huge_order) int_too_long
           huge_order_unformatted).
Qed.

Lemma huge_paid_order_checkout :
  run_checkout checkout_cc (fresh huge_paid_order) =
    (Raise int_too_long, fresh huge_paid_order).
Proof.
  exact (run_checkout_unformatted checkout_cc (fresh huge_paid_order) int_too_long
           (eq_trans (start_message_set_status "paid" huge_order)
              huge_order_unformatted)).
Qed.



(** C5, as amended: [run_checkout] catches nothing.  A declined payment
    ([process] returning [False]) ends in the return value [False], with
    the error record of the coordinator as the last record written and no
    call but the one to [process].  The call ends in an exception exactly
    when the start message cannot be formatted (then nothing has been
    logged or called and the state is untouched), or [process] raises, or
    [process] returns [True] and [send] raises; it is that very
    exception. *)
Theorem run_checkout_exceptions {Price P N : Type}
    {fmt : PyFormat Price}
    {pay : IPaymentProcessor Price P} {notif : INotificationService Price N}
    (self : CheckoutService P N) (w : World Price) :
  match start_message (w_order w) with
  | Raise e => run_checkout self w = (Raise e, w)
  | Return msg =>
      match outcome (payment self w) with
      | Return false =>
          fst (run_checkout self w) = Return false /\
          new_log w (snd (run_checkout self w)) =
            ([mkLogRecord INFO "Checkout" msg] ++ emitted (payment self w)
             ++ [mkLogRecord ERROR "Checkout"
                   "Pembayaran gagal. Transaksi dibatalkan."])%list /\
          new_calls w (snd (run_checkout self w)) = [CallProcess (w_order w)]
      | Return true =>
          match outcome (notification self w) with
          | Return _ => fst (run_checkout self w) = Return true
          | Raise e => fst (run_checkout self w) = Raise e
          end
      | Raise e => fst (run_checkout self w) = Raise e
      end
  end.
Proof.
  run_paths self w; try reflexivity.
  since_start. repeat split.
Qed.

(** C5, as stated, fails: a processor whose [process] raises makes
    [run_checkout] end in that exception, so it is not true that no call of
    [run_checkout] ends in one. *)
Lemma run_checkout_propagates_exception :
  fst (run_checkout checkout_failing (fresh andi_order)) = Raise gateway_down /\
  ~ (forall (P N : Type)
        (pay : IPaymentProcessor Z P) (notif : INotificationService Z N)
        (self : CheckoutService P N) (o : Order Z),
        raised (fst (run_checkout self (fresh o))) = false).
Proof.
  split.
  - reflexivity.
  - intros Hnever.
    specialize (Hnever _ _ _ _ checkout_failing andi_order).
    discriminate Hnever.
Qed.

(** ** The concrete processors *)

(** C6: for every order, [CreditCardProcessor.process] and
    [QrisProcessor.process] return [True]; neither ever returns [False]. *)
Theorem concrete_processors_always_succeed {Price : Type}
    (cc : CreditCardProcessor) (qris : QrisProcessor) (o : Order Price) :
  outcome (process cc o) = Return true /\
  outcome (process qris o) = Return true /\
  outcome (process cc o) <> Return false /\
  outcome (process qris o) <> Return false.
Proof.
  repeat split; discriminate.
Qed.

(** Open/closed: the coordinator sees a processor only through what its
    [process] call returns and does to the order.  Two services with the
    same notifier whose processors agree on both behave alike. *)
Lemma run_checkout_open_closed {Price P1 P2 N : Type}
    {fmt : PyFormat Price}
    {pay1 : IPaymentProcessor Price P1} {pay2 : IPaymentProcessor Price P2}
    {notif : INotificationService Price N}
    (p1 : P1) (p2 : P2) (ntf : N) (w : World Price) :
  outcome (process p1 (w_order w)) = outcome (process p2 (w_order w)) ->
  order_after (process p1 (w_order w)) = order_after (process p2 (w_order w)) ->
  fst (run_checkout (CheckoutService_init p1 ntf) w) =
    fst (run_checkout (CheckoutService_init p2 ntf) w) /\
  w_order (snd (run_checkout (CheckoutService_init p1 ntf) w)) =
    w_order (snd (run_checkout (CheckoutService_init p2 ntf) w)) /\
  w_calls (snd (run_checkout (CheckoutService_init p1 ntf) w)) =
    w_calls (snd (run_checkout (CheckoutService_init p2 ntf) w)).
Proof.
  intros Hout Hord.
  set (s1 := CheckoutService_init p1 ntf).
  set (s2 := CheckoutService_init p2 ntf).
  assert (Hout' : outcome (payment s1 w) = outcome (payment s2 w)) by exact Hout.
  assert (Hord' : order_after (payment s1 w) = order_after (payment s2 w)) by exact Hord.
  assert (Hpaid : paid_order s1 w = paid_order s2 w)
    by (unfold paid_order; rewrite Hord'; reflexivity).
  assert (Hnot : notification s1 w = notification s2 w)
    by (unfold notification; rewrite Hpaid; reflexivity).
  run_paths s2 w.
  - rewrite (run_checkout_paid s1 w _ Hfmt Hout')
      by (rewrite Hnot, Hsend; reflexivity).
    simpl. rewrite Hnot, Hpaid. repeat split.
  - rewrite <- Hnot in Hsend.
    rewrite (run_checkout_send_raises s1 w _ _ Hfmt Hout' Hsend).
    simpl. rewrite Hnot, Hpaid. repeat split.
  - rewrite (run_checkout_declined s1 w _ Hfmt Hout').
    simpl. rewrite Hord'. repeat split.
  - rewrite (run_checkout_process_raises s1 w _ _ Hfmt Hout').
    simpl. rewrite Hord'. repeat split.
  - rewrite (run_checkout_unformatted s1 w _ Hfmt). repeat split.
Qed.

(** C7: with the same notifier and the same coordinator, a service built on
    [CreditCardProcessor] and one built on [QrisProcessor] behave alike on
    every order: the two processors return the same boolean, and the two
    [run_checkout] calls have the same return value, leave the order in the
    same state and make the same plug-in calls. *)
Theorem swap_processor_same_behaviour {Price N : Type}
    {fmt : PyFormat Price} {notif : INotificationService Price N}
    (ntf : N) (w : World Price) :
  outcome (process cc_processor (w_order w)) =
    outcome (process qris_processor (w_order w)) /\
  fst (run_checkout (CheckoutService_init cc_processor ntf) w) =
    fst (run_checkout (CheckoutService_init qris_processor ntf) w) /\
  w_order (snd (run_checkout (CheckoutService_init cc_processor ntf) w)) =
    w_order (snd (run_checkout (CheckoutService_init qris_processor ntf) w)) /\
  w_calls (snd (run_checkout (CheckoutService_init cc_processor ntf) w)) =
    w_calls (snd (run_checkout (CheckoutService_init qris_processor ntf) w)).
Proof.
  split; [reflexivity |].
  apply run_checkout_open_closed; reflexivity.
Qed.

(** ** Orders *)

(** C8: an order built from a customer name and a price alone has status
    ["open"], whatever the two values are. *)
Theorem Order_init_default_status {Price : Type}
    (name : string) (price : Price) :
  status (Order_init name price None) = "open".
Proof. reflexivity. Qed.

(** ** The script *)

(** C9: the two scenarios of the script.  The checkout of
    [Order("Andi", 500000)] through [CreditCardProcessor] returns [True],
    leaves the status ["paid"] and calls [send] once, on Andi's order; the
    checkout of [Order("Budi", 100000)] through [QrisProcessor] does the
    same for Budi.  The script as a whole ends without an exception, with
    both orders paid and one e-mail record per customer. *)
Theorem entry_scenarios :
  (fst scenario1 = Return true /\
   status (w_order (snd scenario1)) = "paid" /\
   sent_orders (new_calls (fresh andi_order) (snd scenario1)) =
     [mkOrder "Andi" 500000%Z "paid"]) /\
  (fst scenario2 = Return true /\
   status (w_order (snd scenario2)) = "paid" /\
   sent_orders (new_calls (snd scenario1) (snd scenario2)) =
     [mkOrder "Budi" 100000%Z "paid"]) /\
  (fst main = Return tt /\
   andi_final (snd main) = mkOrder "Andi" 500000%Z "paid" /\
   budi_final (snd main) = Some (mkOrder "Budi" 100000%Z "paid") /\
   send_count (invoked (snd main)) = 2 /\
   filter (fun r => name r =? "Notifikasi") (logged (snd main)) =
     [mkLogRecord INFO "Notifikasi" "Notif: Mengirim email konfirmasi ke Andi.";
      mkLogRecord INFO "Notifikasi" "Notif: Mengirim email konfirmasi ke Budi."]).
Proof.
  repeat split; vm_compute; reflexivity.
Qed.

(** The script, run from start to end: what it prints, what it logs, the
    calls it makes and the two orders it leaves. *)
Example main_output :
  main =
    (Return tt,
     mkScript
       ["--- Skenario 1: Credit Card ---";
        (newline ++ "--- Skenario 2: Pembuktian OCP (QRIS) ---")%string]
       [mkLogRecord INFO "Checkout" "Memulai checkout untuk Andi. Total: 500000";
        mkLogRecord INFO "Metode Pembayaran" "Payment: Memproses Kartu Kredit.";
        mkLogRecord INFO "Notifikasi" "Notif: Mengirim email konfirmasi ke Andi.";
        mkLogRecord INFO "Checkout" "Checkout Sukses. Status pesanan: PAID";
        mkLogRecord INFO "Checkout" "Memulai checkout untuk Budi. Total: 100000";
        mkLogRecord INFO "Metode Pembayaran" "Payment: Memproses QRIS.";
        mkLogRecord INFO "Notifikasi" "Notif: Mengirim email konfirmasi ke Budi.";
        mkLogRecord INFO "Checkout" "Checkout Sukses. Status pesanan: PAID"]
       [CallProcess (mkOrder "Andi" 500000%Z "open");
        CallSend (mkOrder "Andi" 500000%Z "paid");
        CallProcess (mkOrder "Budi" 100000%Z "open");
        CallSend (mkOrder "Budi" 100000%Z "paid")]
       (mkOrder "Andi" 500000%Z "paid")
       (Some (mkOrder "Budi" 100000%Z "paid"))).
Proof. vm_compute. reflexivity. Qed.

(** A declined payment, on the order of the first scenario. *)
Example declined_output :
  run_checkout checkout_declining (fresh andi_order) =
    (Return false,
     mkWorld (mkOrder "Andi" 500000%Z "open")
       [mkLogRecord INFO "Checkout" "Memulai checkout untuk Andi. Total: 500000";
        mkLogRecord INFO "Metode Pembayaran" "Payment: Ditolak.";
        mkLogRecord ERROR "Checkout" "Pembayaran gagal. Transaksi dibatalkan."]
       [CallProcess (mkOrder "Andi" 500000%Z "open")]).
Proof. vm_compute. reflexivity. Qed.

(** A price of 4301 digits: the start message cannot be built, so the call
    ends in [ValueError] with nothing logged, nothing called and the order
    as it was; one digit less and the checkout goes through. *)
Example huge_price_output :
  run_checkout checkout_cc (fresh huge_order) =
    (Raise int_too_long, fresh huge_order) /\
  fst (run_checkout checkout_cc
         (fresh (Order_init "Huge" (10 ^ 4300 - 1)%Z None))) = Return true.
Proof.
  split.
  - exact huge_order_checkout.
  - vm_compute. reflexivity.
Qed.

(** ** Calling again *)

Section Cooperative.

Context {Price P N : Type}.
Context {fmt : PyFormat Price}.
Context {pay : IPaymentProcessor Price P} {notif : INotificationService Price N}.
Variable self : CheckoutService P N.

Hypothesis process_succeeds : always_succeeds (process (payment_processor self)).
Hypothesis process_reads : read_only (process (payment_processor self)).
Hypothesis send_returns : returns_normally (send (notifier self)).
Hypothesis send_reads : read_only (send (notifier self)).

(** With such plug-ins every call whose start message formats takes the
    success path, whatever the status of the order it is given. *)
Lemma run_checkout_cooperative (w : World Price) (msg : string) :
  start_message (w_order w) = Return msg ->
  run_checkout self w =
    (Return true,
     mkWorld (set_status "paid" (w_order w))
       (w_log w ++ info LOGGER msg ++ emitted (payment self w)
          ++ emitted (notification self w) ++ success_record)%list
       (w_calls w ++ [CallProcess (w_order w);
                      CallSend (set_status "paid" (w_order w))])%list).
Proof.
  intros Hf.
  assert (Hpay : order_after (payment self w) = w_order w)
    by apply process_reads.
  rewrite (run_checkout_paid self w msg Hf (process_succeeds (w_order w)))
    by apply send_returns.
  unfold notification at 1. rewrite send_reads.
  unfold paid_order. rewrite Hpay. reflexivity.
Qed.

(** A call that returned [True] had formatted its start message. *)
Lemma returned_formats (w : World Price) (b : bool) :
  fst (run_checkout self w) = Return b ->
  exists msg, start_message (w_order w) = Return msg.
Proof.
  destruct (start_message (w_order w)) as [msg | e] eqn:Hf.
  - intros _. exists msg. reflexivity.
  - rewrite (run_checkout_unformatted self w e Hf). intros H. discriminate H.
Qed.

End Cooperative.

(** C10, as amended: [run_checkout] does not look at the status it is
    given.  With a processor that always succeeds and an order whose start
    message can be formatted, a call on an order that is already ["paid"]
    returns [True] again, leaves the order as it is and calls [send] once
    more; two calls in a row on one order both return [True], end in the
    state the first call left, and call [send] twice, once per call. *)
Theorem run_checkout_again_on_paid_order {Price P N : Type}
    {fmt : PyFormat Price}
    {pay : IPaymentProcessor Price P} {notif : INotificationService Price N}
    (self : CheckoutService P N) (w : World Price) :
  start_formats (w_order w) ->
  always_succeeds (process (payment_processor self)) ->
  read_only (process (payment_processor self)) ->
  returns_normally (send (notifier self)) ->
  read_only (send (notifier self)) ->
  (status (w_order w) = "paid" ->
     fst (run_checkout self w) = Return true /\
     w_order (snd (run_checkout self w)) = w_order w /\
     send_count (new_calls w (snd (run_checkout self w))) = 1) /\
  fst (run_checkout_twice self w) = Return (true, true) /\
  status (w_order (snd (run_checkout self w))) = "paid" /\
  w_order (snd (run_checkout_twice self w)) = w_order (snd (run_checkout self w)) /\
  send_count (new_calls w (snd (run_checkout self w))) = 1 /\
  send_count (new_calls (snd (run_checkout self w)) (snd (run_checkout_twice self w))) = 1 /\
  send_count (new_calls w (snd (run_checkout_twice self w))) = 2.
Proof.
  unfold start_formats. intros Hformats Hsucc Hpr Hret Hsr.
  destruct (start_message (w_order w)) as [msg | e] eqn:Hf;
    [clear Hformats | discriminate Hformats].
  pose proof (run_checkout_cooperative self Hsucc Hpr Hret Hsr) as Hrun.
  assert (Hfst : forall v, start_message (w_order v) = Return msg ->
                   fst (run_checkout self v) = Return true)
    by (intros v Hv; rewrite (Hrun v msg Hv); reflexivity).
  assert (Hord : forall v, start_message (w_order v) = Return msg ->
                   w_order (snd (run_checkout self v)) = set_status "paid" (w_order v))
    by (intros v Hv; rewrite (Hrun v msg Hv); reflexivity).
  assert (Hcalls : forall v, start_message (w_order v) = Return msg ->
            w_calls (snd (run_checkout self v)) =
            (w_calls v ++ [CallProcess (w_order v);
                           CallSend (set_status "paid" (w_order v))])%list)
    by (intros v Hv; rewrite (Hrun v msg Hv); reflexivity).
  assert (Hf1 : start_message (w_order (snd (run_checkout self w))) = Return msg)
    by (rewrite (Hord w Hf); exact Hf).
  assert (Htwice : run_checkout_twice self w =
            (Return (true, true),
             snd (run_checkout self (snd (run_checkout self w))))).
  { unfold run_checkout_twice, bind, ret.
    pose proof (Hfst _ Hf) as F1. pose proof (Hfst _ Hf1) as F2. revert F1 F2.
    destruct (run_checkout self w) as [r1 w1]. cbn [fst snd].
    intros ->.
    destruct (run_checkout self w1) as [r2 w2]. cbn [fst snd].
    intros ->. reflexivity. }
  clear Hrun. rewrite Htwice. cbn [fst snd]. unfold new_calls.
  rewrite (Hcalls _ Hf1), (Hord _ Hf1), (Hcalls w Hf), (Hord w Hf), (Hfst w Hf).
  split; [| repeat split].
  - intros Hpaid. rewrite <- Hpaid at 1. rewrite set_status_same.
    repeat split. rewrite skipn_length_app. reflexivity.
  - rewrite skipn_length_app. reflexivity.
  - rewrite skipn_length_app. reflexivity.
  - rewrite <- app_assoc, skipn_length_app. reflexivity.
Qed.

(** C10, as stated, fails: the order with a price of 4301 digits, already
    ["paid"], checked out with the credit-card processor, which always
    succeeds: the call does not return [True], it ends in [ValueError], and
    [send] is not invoked. *)
Lemma run_checkout_again_on_paid_order_fails :
  status huge_paid_order = "paid" /\
  always_succeeds (Price := Z) (process (payment_processor checkout_cc)) /\
  fst (run_checkout checkout_cc (fresh huge_paid_order)) = Raise int_too_long /\
  fst (run_checkout checkout_cc (fresh huge_paid_order)) <> Return true /\
  send_count
    (new_calls (fresh huge_paid_order)
       (snd (run_checkout checkout_cc (fresh huge_paid_order)))) = 0.
Proof.
  rewrite huge_paid_order_checkout.
  split; [reflexivity | split; [intros o; reflexivity | split; [reflexivity |]]].
  split; [intros H; discriminate H | reflexivity].
Qed.

(** ** The theorems at the plug-ins of the script *)


Lemma run_checkout_status_witness :
  keeps_status (Price := Z) (process (payment_processor checkout_declining)) /\
  keeps_status (Price := Z) (send (notifier checkout_declining)) /\
  fst (run_checkout checkout_declining (fresh andi_order)) = Return false /\
  status (w_order (fresh andi_order)) = "open" /\
  status (w_order (snd (run_checkout checkout_declining (fresh andi_order)))) = "open".
Proof.
  assert (Hp : keeps_status (Price := Z) (process (payment_processor checkout_declining)))
    by (intros o; reflexivity).
  assert (Hn : keeps_status (Price := Z) (send (notifier checkout_declining)))
    by (intros o; reflexivity).
  assert (Hfalse : fst (run_checkout checkout_declining (fresh andi_order)) = Return false)
    by reflexivity.
  assert (Hopen : status (w_order (fresh andi_order)) = "open")
    by reflexivity.
  exact (conj Hp (conj Hn (conj Hfalse (conj Hopen
           (proj2 (proj2
              (run_checkout_status checkout_declining (fresh andi_order) Hp Hn))
              Hfalse Hopen))))).
Defined.


Lemma run_checkout_frame_witness :
  read_only (Price := Z) (process (payment_processor checkout_cc)) /\
  read_only (Price := Z) (send (notifier checkout_cc)) /\
  customer_name (w_order (snd (run_checkout checkout_cc (fresh andi_order)))) = "Andi" /\
  total_price (w_order (snd (run_checkout checkout_cc (fresh andi_order)))) = 500000%Z.
Proof.
  assert (Hp : read_only (Price := Z) (process (payment_processor checkout_cc)))
    by (intros o; reflexivity).
  assert (Hn : read_only (Price := Z) (send (notifier checkout_cc)))
    by (intros o; reflexivity).
  pose proof (run_checkout_frame checkout_cc (fresh andi_order) Hp Hn)
    as [Hname [Hprice _]].
  exact (conj Hp (conj Hn (conj Hname Hprice))).
Defined.

Lemma run_checkout_again_on_paid_order_witness :
  start_formats (w_order (fresh andi_order)) /\
  always_succeeds (Price := Z) (process (payment_processor checkout_cc)) /\
  read_only (Price := Z) (process (payment_processor checkout_cc)) /\
  returns_normally (Price := Z) (send (notifier checkout_cc)) /\
  read_only (Price := Z) (send (notifier checkout_cc)) /\
  fst (run_checkout_twice checkout_cc (fresh andi_order)) = Return (true, true) /\
  send_count (new_calls (fresh andi_order)
                (snd (run_checkout_twice checkout_cc (fresh andi_order)))) = 2.
Proof.
  assert (Hf : start_formats (w_order (fresh andi_order))) by reflexivity.
  assert (Hps : always_succeeds (Price := Z) (process (payment_processor checkout_cc)))
    by (intros o; reflexivity).
  assert (Hpr : read_only (Price := Z) (process (payment_processor checkout_cc)))
    by (intros o; reflexivity).
  assert (Hnn : returns_normally (Price := Z) (send (notifier checkout_cc)))
    by (intros o; reflexivity).
  assert (Hnr : read_only (Price := Z) (send (notifier checkout_cc)))
    by (intros o; reflexivity).
  pose proof (run_checkout_again_on_paid_order checkout_cc (fresh andi_order)
                Hf Hps Hpr Hnn Hnr)
    as [_ [Htwice [_ [_ [_ [_ Hcount]]]]]].
  exact (conj Hf (conj Hps (conj Hpr (conj Hnn (conj Hnr (conj Htwice Hcount)))))).
Defined.

(** * Further properties of the coordinator *)

Lemma sent_orders_app {Price : Type} (c d : list (Invocation Price)) :
  sent_orders (c ++ d) = (sent_orders c ++ sent_orders d)%list.
Proof.
  induction c as [| [o | o] c IH]; simpl; [reflexivity | exact IH |].
  rewrite IH. reflexivity.
Qed.

Lemma processed_orders_app {Price : Type} (c d : list (Invocation Price)) :
  processed_orders (c ++ d) = (processed_orders c ++ processed_orders d)%list.
Proof.
  induction c as [| [o | o] c IH]; simpl; [reflexivity | | exact IH].
  rewrite IH. reflexivity.
Qed.

Section Paths.

Context {Price P N : Type}.
Context {fmt : PyFormat Price}.
Context {pay : IPaymentProcessor Price P} {notif : INotificationService Price N}.
Variable self : CheckoutService P N.
Variable w : World Price.

(** X1: [run_checkout] returns [False] exactly when it gets to call
    [process] and that call returns [False], whatever the notifier is or
    does: a declined payment never reaches it. *)
Theorem run_checkout_false_iff_process_false :
  fst (run_checkout self w) = Return false <->
  reaches_process self w /\ outcome (payment self w) = Return false.
Proof.
  unfold reaches_process.
  run_paths self w; since_start.
  - split; [intros H | intros [_ H]]; discriminate H.
  - split; [intros H | intros [_ H]]; discriminate H.
  - split; [intros _; split; [left |]; reflexivity | reflexivity].
  - split; [intros H | intros [_ H]]; discriminate H.
  - split; [intros H; discriminate H | intros [[] _]].
Qed.

(** X2: a call begins in one of two ways.  Either the start message cannot
    be formatted, and the call ends in that exception with the interpreter
    exactly as it was: no record, no plug-in call, the order untouched.  Or
    the start record is the first thing written, [process] is the first
    plug-in called, once, on the order as it was passed in, and what
    [process] logs follows the start record; this however the call ends. *)
Theorem run_checkout_begins :
  match start_message (w_order w) with
  | Raise e => run_checkout self w = (Raise e, w)
  | Return msg =>
      (exists rest,
         new_log w (snd (run_checkout self w)) =
           ([mkLogRecord INFO "Checkout" msg] ++ emitted (payment self w)
            ++ rest)%list) /\
      (exists rest,
         new_calls w (snd (run_checkout self w)) = CallProcess (w_order w) :: rest) /\
      processed_orders (new_calls w (snd (run_checkout self w))) = [w_order w]
  end.
Proof.
  run_paths self w; [| | | | reflexivity]; since_start;
    (split; [| split; [| reflexivity]]);
    try (eexists; reflexivity).
  exists []. rewrite app_nil_r. reflexivity.
Qed.

(** X4: nothing is undone when the notification fails.  If the call gets
    to [send] and [send] raises, the call ends in that exception with the
    order already marked ["paid"]; [send] was called once, and neither the
    success record nor the failure record is written. *)
Theorem send_failure_leaves_order_paid (e : PyException) :
  reaches_send self w ->
  outcome (notification self w) = Raise e ->
  keeps_status (send (notifier self)) ->
  fst (run_checkout self w) = Raise e /\
  status (w_order (snd (run_checkout self w))) = "paid" /\
  sent_orders (new_calls w (snd (run_checkout self w))) = [paid_order self w] /\
  new_log w (snd (run_checkout self w)) =
    (start_record (w_order w) ++ emitted (payment self w)
     ++ emitted (notification self w))%list.
Proof.
  intros Hreach Hs Hk.
  destruct (reaches_send_paid self w Hreach) as [[msg Hf] Hp].
  rewrite (run_checkout_send_raises self w msg e Hf Hp Hs).
  since_start. unfold start_record. rewrite Hf. repeat split.
  unfold notification. rewrite Hk. reflexivity.
Qed.

(** X5: when the call gets to [process] and [process] raises, the
    coordinator has written nothing to the order, has not called [send],
    and has logged the start record only. *)
Theorem process_failure_stops_checkout (e : PyException) :
  reaches_process self w ->
  outcome (payment self w) = Raise e ->
  fst (run_checkout self w) = Raise e /\
  w_order (snd (run_checkout self w)) = order_after (payment self w) /\
  new_calls w (snd (run_checkout self w)) = [CallProcess (w_order w)] /\
  new_log w (snd (run_checkout self w)) =
    (start_record (w_order w) ++ emitted (payment self w))%list.
Proof.
  intros Hreach Hp.
  destruct (reaches_process_formats self w Hreach) as [msg Hf].
  rewrite (run_checkout_process_raises self w msg e Hf Hp).
  since_start. unfold start_record. rewrite Hf. repeat split.
Qed.

(** X6: the status only ever moves to ["paid"].  With plug-ins that do not
    write it, after a call, however it ends, the status is what it was or
    ["paid"], and an order that was ["paid"] is still ["paid"]. *)
Theorem status_only_moves_to_paid :
  keeps_status (process (payment_processor self)) ->
  keeps_status (send (notifier self)) ->
  (status (w_order (snd (run_checkout self w))) = status (w_order w) \/
   status (w_order (snd (run_checkout self w))) = "paid") /\
  (status (w_order w) = "paid" ->
   status (w_order (snd (run_checkout self w))) = "paid").
Proof.
  intros Hkp Hkn.
  assert (Hpay : status (order_after (payment self w)) = status (w_order w))
    by apply Hkp.
  assert (Hsend : status (order_after (notification self w)) = "paid")
    by (unfold notification; rewrite Hkn; reflexivity).
  run_paths self w; cbn [snd w_order]; rewrite ?Hsend, ?Hpay; split;
    solve [right; reflexivity | left; reflexivity | intros H; exact H
          | reflexivity].
Qed.

End Paths.

(** X7: the notifier plays no part unless the payment succeeded.  Two
    services with the same processor and any two notifiers do exactly the
    same on an order for which [process] does not return [True]. *)
Theorem notifier_unused_unless_paid {Price P N1 N2 : Type}
    {fmt : PyFormat Price} {pay : IPaymentProcessor Price P}
    {notif1 : INotificationService Price N1}
    {notif2 : INotificationService Price N2}
    (p : P) (n1 : N1) (n2 : N2) (w : World Price) :
  outcome (process p (w_order w)) <> Return true ->
  run_checkout (CheckoutService_init p n1) w =
  run_checkout (CheckoutService_init p n2) w.
Proof.
  intros Hnot.
  set (s1 := CheckoutService_init p n1).
  set (s2 := CheckoutService_init p n2).
  assert (Hsame : payment s1 w = payment s2 w) by reflexivity.
  destruct (start_message (w_order w)) as [msg | e] eqn:Hf.
  - destruct (outcome (payment s1 w)) as [[|] | e] eqn:Hpay.
    + exfalso. apply Hnot. exact Hpay.
    + rewrite (run_checkout_declined s1 w msg Hf Hpay).
      rewrite Hsame in Hpay. rewrite (run_checkout_declined s2 w msg Hf Hpay).
      reflexivity.
    + rewrite (run_checkout_process_raises s1 w msg e Hf Hpay).
      rewrite Hsame in Hpay.
      rewrite (run_checkout_process_raises s2 w msg e Hf Hpay).
      reflexivity.
  - rewrite (run_checkout_unformatted s1 w e Hf).
    rewrite (run_checkout_unformatted s2 w e Hf). reflexivity.
Qed.

(** ** The e-mail notifier *)

Lemma string_length_append (s t : string) :
  String.length (s ++ t) = String.length s + String.length t.
Proof.
  induction s as [| c s IH]; simpl; [reflexivity | rewrite IH; reflexivity].
Qed.

Lemma string_append_inj_r (t a b : string) :
  (a ++ t)%string = (b ++ t)%string -> a = b.
Proof.
  revert b. induction a as [| c a IH]; intros [| d b] H.
  - reflexivity.
  - apply (f_equal String.length) in H.
    simpl in H. rewrite string_length_append in H. lia.
  - apply (f_equal String.length) in H.
    simpl in H. rewrite string_length_append in H. lia.
  - simpl in H. injection H as Hc H. rewrite Hc, (IH b H). reflexivity.
Qed.

(** X8: [EmailNotifier.send] returns, leaves the order as it is and writes
    one [INFO] record on the [Notifikasi] logger.  The record tells the
    customer and nothing else: two orders get the same record exactly when
    they have the same [customer_name], whatever their price or status. *)
Theorem email_record_names_the_customer {Price : Type}
    (n : EmailNotifier) (o1 o2 : Order Price) :
  outcome (send n o1) = Return tt /\
  order_after (send n o1) = o1 /\
  (exists msg, emitted (send n o1) = [mkLogRecord INFO "Notifikasi" msg]) /\
  (emitted (send n o1) = emitted (send n o2) <->
   customer_name o1 = customer_name o2).
Proof.
  split; [reflexivity | split; [reflexivity | split]].
  - eexists. reflexivity.
  - split.
    + intros H.
      change (emitted (send n o1)) with
        [mkLogRecord INFO "Notifikasi"
           ("Notif: Mengirim email konfirmasi ke " ++ customer_name o1 ++ ".")]
        in H.
      change (emitted (send n o2)) with
        [mkLogRecord INFO "Notifikasi"
           ("Notif: Mengirim email konfirmasi ke " ++ customer_name o2 ++ ".")]
        in H.
      injection H as H.
      exact (string_append_inj_r "." _ _ H).
    + intros H.
      change (emitted (send n o1)) with
        [mkLogRecord INFO "Notifikasi"
           ("Notif: Mengirim email konfirmasi ke " ++ customer_name o1 ++ ".")].
      change (emitted (send n o2)) with
        [mkLogRecord INFO "Notifikasi"
           ("Notif: Mengirim email konfirmasi ke " ++ customer_name o2 ++ ".")].
      rewrite H. reflexivity.
Qed.

(** ** Swapping plug-ins *)

(** X9: the coordinator knows its plug-ins only by how their calls end and
    what they do to the order.  Two services whose [process] calls agree on
    both, and whose [send] calls agree on both, return the same, leave the
    same order and make the same calls; their logs differ only in the
    records the plug-ins write themselves, and hold none of those when the
    start message cannot be formatted. *)
Theorem plugins_swap {Price P1 P2 N1 N2 : Type}
    {fmt : PyFormat Price}
    {pay1 : IPaymentProcessor Price P1} {pay2 : IPaymentProcessor Price P2}
    {notif1 : INotificationService Price N1}
    {notif2 : INotificationService Price N2}
    (s1 : CheckoutService P1 N1) (s2 : CheckoutService P2 N2)
    (w : World Price) :
  outcome (payment s1 w) = outcome (payment s2 w) ->
  order_after (payment s1 w) = order_after (payment s2 w) ->
  outcome (notification s1 w) = outcome (notification s2 w) ->
  order_after (notification s1 w) = order_after (notification s2 w) ->
  fst (run_checkout s1 w) = fst (run_checkout s2 w) /\
  w_order (snd (run_checkout s1 w)) = w_order (snd (run_checkout s2 w)) /\
  w_calls (snd (run_checkout s1 w)) = w_calls (snd (run_checkout s2 w)) /\
  exists (paying notified : bool) (last : list LogRecord),
    new_log w (snd (run_checkout s1 w)) =
      (start_record (w_order w)
       ++ (if paying then emitted (payment s1 w) else [])
       ++ (if notified then emitted (notification s1 w) else []) ++ last)%list /\
    new_log w (snd (run_checkout s2 w)) =
      (start_record (w_order w)
       ++ (if paying then emitted (payment s2 w) else [])
       ++ (if notified then emitted (notification s2 w) else []) ++ last)%list.
Proof.
  intros Hpo Hpa Hno Hna.
  assert (Hpaid : paid_order s1 w = paid_order s2 w)
    by (unfold paid_order; rewrite Hpa; reflexivity).
  unfold start_record.
  destruct (start_message (w_order w)) as [msg | e] eqn:Hf.
  - destruct (outcome (payment s2 w)) as [[|] | e] eqn:Hp2.
    + destruct (outcome (notification s2 w)) as [[] | e] eqn:Hn2.
      * assert (Hr1 : raised (outcome (notification s1 w)) = false)
          by (rewrite Hno; reflexivity).
        assert (Hr2 : raised (outcome (notification s2 w)) = false)
          by (rewrite Hn2; reflexivity).
        rewrite (run_checkout_paid s1 w msg Hf Hpo Hr1).
        rewrite (run_checkout_paid s2 w msg Hf Hp2 Hr2).
        since_start. rewrite Hna, Hpaid. repeat split.
        exists true, true, success_record. split; reflexivity.
      * rewrite (run_checkout_send_raises s1 w msg e Hf Hpo Hno).
        rewrite (run_checkout_send_raises s2 w msg e Hf Hp2 Hn2).
        since_start. rewrite Hna, Hpaid. repeat split.
        exists true, true, []. rewrite !app_nil_r. split; reflexivity.
    + rewrite (run_checkout_declined s1 w msg Hf Hpo).
      rewrite (run_checkout_declined s2 w msg Hf Hp2).
      since_start. rewrite Hpa. repeat split.
      exists true, false, failure_record. split; reflexivity.
    + rewrite (run_checkout_process_raises s1 w msg e Hf Hpo).
      rewrite (run_checkout_process_raises s2 w msg e Hf Hp2).
      since_start. rewrite Hpa. repeat split.
      exists true, false, []. rewrite !app_nil_r. split; reflexivity.
  - rewrite (run_checkout_unformatted s1 w e Hf).
    rewrite (run_checkout_unformatted s2 w e Hf).
    since_start. repeat split.
    exists false, false, []. split; reflexivity.
Qed.

(** ** Error records *)

(** X10: an error record means a declined payment.  With plug-ins that log
    no [ERROR] record themselves, the records of a call that returns hold
    an [ERROR] record exactly when the call returned [False]. *)
Theorem error_record_iff_declined {Price P N : Type}
    {fmt : PyFormat Price}
    {pay : IPaymentProcessor Price P} {notif : INotificationService Price N}
    (self : CheckoutService P N) (w : World Price) (b : bool) :
  logs_no_error (process (payment_processor self)) ->
  logs_no_error (send (notifier self)) ->
  fst (run_checkout self w) = Return b ->
  existsb is_error (new_log w (snd (run_checkout self w))) = negb b.
Proof.
  intros Hqp Hqn.
  assert (Hp : existsb is_error (emitted (payment self w)) = false)
    by apply Hqp.
  assert (Hn : existsb is_error (emitted (notification self w)) = false)
    by apply Hqn.
  assert (Hs : forall msg, existsb is_error (info LOGGER msg) = false)
    by reflexivity.
  run_paths self w; cbn [fst]; intros Hb; try discriminate Hb;
    injection Hb as <-; since_start;
    rewrite !existsb_app, Hs, Hp, ?Hn; reflexivity.
Qed.

(** ** Checking the same order out again and again *)

Section Repeated.

Context {Price P N : Type}.
Context {fmt : PyFormat Price}.
Context {pay : IPaymentProcessor Price P} {notif : INotificationService Price N}.
Variable self : CheckoutService P N.

(** The calls one [run_checkout] adds to the trace. *)
Lemma run_checkout_adds_calls (w : World Price) :
  exists d,
    w_calls (snd (run_checkout self w)) = (w_calls w ++ d)%list /\
    length (processed_orders d) <= 1 /\
    length (sent_orders d) <= length (processed_orders d) /\
    Forall (fun o => status o = "paid") (sent_orders d).
Proof.
  run_paths self w; cbn [snd w_calls];
    [| | | | exists []; rewrite app_nil_r; simpl; auto];
    eexists; (split; [reflexivity |]); simpl; auto.
Qed.

Lemma run_checkout_times_calls (n : nat) :
  forall w : World Price,
  exists d,
    w_calls (run_checkout_times self n w) = (w_calls w ++ d)%list /\
    length (processed_orders d) <= n /\
    length (sent_orders d) <= length (processed_orders d) /\
    Forall (fun o => status o = "paid") (sent_orders d).
Proof.
  induction n as [| n IH]; intros w.
  - exists []. simpl. rewrite app_nil_r. auto.
  - destruct (run_checkout_adds_calls w) as [d [Hd [Hp [Hs Hf]]]].
    destruct (IH (snd (run_checkout self w))) as [d' [Hd' [Hp' [Hs' Hf']]]].
    exists (d ++ d')%list. simpl run_checkout_times.
    rewrite Hd', Hd, <- app_assoc.
    rewrite processed_orders_app, sent_orders_app, !length_app.
    repeat split; try lia.
    apply Forall_app. split; assumption.
Qed.

(** X11: after [n] calls on the same order, whatever the plug-ins do and
    however each call ends, the trace has gained at most [n] calls of
    [process] and no more calls of [send] than of [process], every [send]
    on an order already marked ["paid"]; nothing recorded before is
    lost. *)
Theorem calls_after_n_checkouts (n : nat) (w : World Price) :
  process_count (new_calls w (run_checkout_times self n w)) <= n /\
  send_count (new_calls w (run_checkout_times self n w)) <=
    process_count (new_calls w (run_checkout_times self n w)) /\
  Forall (fun o => status o = "paid")
    (sent_orders (new_calls w (run_checkout_times self n w))) /\
  firstn (length (w_calls w)) (w_calls (run_checkout_times self n w)) = w_calls w.
Proof.
  destruct (run_checkout_times_calls n w) as [d [Hd [Hp [Hs Hf]]]].
  unfold process_count, send_count, new_calls.
  rewrite Hd, skipn_length_app.
  repeat split; try assumption.
  rewrite firstn_app, Nat.sub_diag, firstn_all. simpl. apply app_nil_r.
Qed.

(** The order one [run_checkout] leaves when the plug-ins only read it. *)
Lemma run_checkout_order_cases (w : World Price) :
  read_only (process (payment_processor self)) ->
  read_only (send (notifier self)) ->
  w_order (snd (run_checkout self w)) = w_order w \/
  w_order (snd (run_checkout self w)) = set_status "paid" (w_order w).
Proof.
  intros Hrp Hrn.
  assert (Hpay : order_after (payment self w) = w_order w) by apply Hrp.
  assert (Hsend : order_after (notification self w) = set_status "paid" (w_order w)).
  { unfold notification. rewrite Hrn. unfold paid_order. rewrite Hpay. reflexivity. }
  run_paths self w; cbn [snd w_order]; rewrite ?Hsend, ?Hpay; auto.
Qed.

(** X12: with plug-ins that only read the order, no number of calls,
    succeeding, declined or failing, changes [customer_name] or
    [total_price], and the status is still the first one or ["paid"]. *)
Theorem order_after_n_checkouts (n : nat) (w : World Price) :
  read_only (process (payment_processor self)) ->
  read_only (send (notifier self)) ->
  customer_name (w_order (run_checkout_times self n w)) = customer_name (w_order w) /\
  total_price (w_order (run_checkout_times self n w)) = total_price (w_order w) /\
  (status (w_order (run_checkout_times self n w)) = status (w_order w) \/
   status (w_order (run_checkout_times self n w)) = "paid").
Proof.
  intros Hrp Hrn. revert w.
  induction n as [| n IH]; intros w.
  - simpl. auto.
  - simpl run_checkout_times.
    destruct (IH (snd (run_checkout self w))) as [Hn [Hp Hs]].
    rewrite Hn, Hp.
    destruct (run_checkout_order_cases w Hrp Hrn) as [Hw | Hw].
    + rewrite Hw in Hs |- *. auto.
    + rewrite Hw in Hs |- *. cbn [set_status customer_name total_price status] in *.
      repeat split. destruct Hs as [Hs | Hs]; right; exact Hs.
Qed.

(** X13: with a processor that always succeeds and plug-ins that only read
    the order and return, once a call has returned [True], [n] calls send
    [n] notifications, and from the first call on the order is the one
    passed in with status ["paid"]. *)
Theorem n_successful_checkouts (n : nat) (w : World Price) :
  always_succeeds (process (payment_processor self)) ->
  read_only (process (payment_processor self)) ->
  returns_normally (send (notifier self)) ->
  read_only (send (notifier self)) ->
  fst (run_checkout self w) = Return true ->
  send_count (new_calls w (run_checkout_times self n w)) = n /\
  w_order (run_checkout_times self (S n) w) = set_status "paid" (w_order w).
Proof.
  intros Hsucc Hpr Hret Hsr Hfirst.
  destruct (returned_formats self w true Hfirst) as [msg Hf].
  pose proof (run_checkout_cooperative self Hsucc Hpr Hret Hsr) as Hrun.
  assert (Hstep : forall k (v : World Price),
            start_message (w_order v) = Return msg ->
            w_order (run_checkout_times self (S k) v) = set_status "paid" (w_order v) /\
            exists d,
              w_calls (run_checkout_times self k v) = (w_calls v ++ d)%list /\
              length (sent_orders d) = k).
  { induction k as [| k IH]; intros v Hv.
    - split.
      + simpl. rewrite (Hrun v msg Hv). reflexivity.
      + exists []. simpl. rewrite app_nil_r. auto.
    - assert (Hv' : start_message (w_order (snd (run_checkout self v))) = Return msg)
        by (rewrite (Hrun v msg Hv); exact Hv).
      destruct (IH (snd (run_checkout self v)) Hv') as [Ho [d [Hd Hl]]].
      split.
      + change (run_checkout_times self (S (S k)) v)
          with (run_checkout_times self (S k) (snd (run_checkout self v))).
        rewrite Ho, (Hrun v msg Hv). reflexivity.
      + change (run_checkout_times self (S k) v)
          with (run_checkout_times self k (snd (run_checkout self v))).
        rewrite Hd, (Hrun v msg Hv). cbn [snd w_calls].
        rewrite <- app_assoc. eexists. split; [reflexivity |].
        rewrite sent_orders_app, length_app, Hl. reflexivity. }
  destruct (Hstep n w Hf) as [Ho [d [Hd Hl]]].
  split; [| exact Ho].
  unfold send_count, new_calls. rewrite Hd, skipn_length_app. exact Hl.
Qed.

End Repeated.

(** X14: with the plug-ins of the file a checkout fails in one way only.
    For every order and from every state, a service on
    [CreditCardProcessor] or on [QrisProcessor] with [EmailNotifier] either
    cannot format the start message, and ends in that exception with
    nothing logged, nothing called and the order untouched; or it returns
    [True], leaves the order as passed in but with status ["paid"], calls
    [send] once, and writes four [INFO] records: the coordinator's, the
    processor's, the notifier's, the coordinator's. *)
Theorem shipped_plugins_check_out {Price : Type} {fmt : PyFormat Price}
    (by_card : CheckoutService CreditCardProcessor EmailNotifier)
    (by_qris : CheckoutService QrisProcessor EmailNotifier)
    (w : World Price) :
  match start_message (w_order w) with
  | Raise e =>
      run_checkout by_card w = (Raise e, w) /\
      run_checkout by_qris w = (Raise e, w)
  | Return _ =>
      (fst (run_checkout by_card w) = Return true /\
       w_order (snd (run_checkout by_card w)) = set_status "paid" (w_order w) /\
       new_calls w (snd (run_checkout by_card w)) =
         [CallProcess (w_order w); CallSend (set_status "paid" (w_order w))] /\
       map (fun r => (levelname r, name r))
         (new_log w (snd (run_checkout by_card w))) =
         [(INFO, "Checkout"); (INFO, "Metode Pembayaran");
          (INFO, "Notifikasi"); (INFO, "Checkout")]) /\
      (fst (run_checkout by_qris w) = Return true /\
       w_order (snd (run_checkout by_qris w)) = set_status "paid" (w_order w) /\
       new_calls w (snd (run_checkout by_qris w)) =
         [CallProcess (w_order w); CallSend (set_status "paid" (w_order w))] /\
       map (fun r => (levelname r, name r))
         (new_log w (snd (run_checkout by_qris w))) =
         [(INFO, "Checkout"); (INFO, "Metode Pembayaran");
          (INFO, "Notifikasi"); (INFO, "Checkout")])
  end.
Proof.
  destruct (start_message (w_order w)) as [msg | e] eqn:Hf.
  - assert (Hcard : outcome (payment by_card w) = Return true) by reflexivity.
    assert (Hqris : outcome (payment by_qris w) = Return true) by reflexivity.
    rewrite (run_checkout_paid by_card w msg Hf Hcard) by reflexivity.
    rewrite (run_checkout_paid by_qris w msg Hf Hqris) by reflexivity.
    since_start. repeat split.
  - rewrite (run_checkout_unformatted by_card w e Hf).
    rewrite (run_checkout_unformatted by_qris w e Hf).
    split; reflexivity.
Qed.

(** ** The further properties at concrete plug-ins *)

Lemma send_failure_leaves_order_paid_witness :
  reaches_send checkout_unnotified (fresh andi_order) /\
  outcome (notification checkout_unnotified (fresh andi_order)) = Raise smtp_down /\
  keeps_status (Price := Z) (send (notifier checkout_unnotified)) /\
  fst (run_checkout checkout_unnotified (fresh andi_order)) = Raise smtp_down /\
  status (w_order (snd (run_checkout checkout_unnotified (fresh andi_order)))) = "paid".
Proof.
  assert (Hp : reaches_send checkout_unnotified (fresh andi_order))
    by (right; left; reflexivity).
  assert (Hs : outcome (notification checkout_unnotified (fresh andi_order))
               = Raise smtp_down)
    by reflexivity.
  assert (Hk : keeps_status (Price := Z) (send (notifier checkout_unnotified)))
    by (intros o; reflexivity).
  pose proof (send_failure_leaves_order_paid checkout_unnotified
                (fresh andi_order) smtp_down Hp Hs Hk)
    as [Hraise [Hpaid _]].
  exact (conj Hp (conj Hs (conj Hk (conj Hraise Hpaid)))).
Defined.

Lemma process_failure_stops_checkout_witness :
  reaches_process checkout_failing (fresh andi_order) /\
  outcome (payment checkout_failing (fresh andi_order)) = Raise gateway_down /\
  fst (run_checkout checkout_failing (fresh andi_order)) = Raise gateway_down /\
  w_order (snd (run_checkout checkout_failing (fresh andi_order))) = andi_order /\
  new_calls (fresh andi_order) (snd (run_checkout checkout_failing (fresh andi_order)))
    = [CallProcess andi_order].
Proof.
  assert (Hp : outcome (payment checkout_failing (fresh andi_order))
               = Raise gateway_down)
    by reflexivity.
  assert (Hc : reaches_process checkout_failing (fresh andi_order))
    by (left; reflexivity).
  pose proof (process_failure_stops_checkout checkout_failing
                (fresh andi_order) gateway_down Hc Hp)
    as [Hraise [Horder [Hcalls _]]].
  exact (conj Hc (conj Hp (conj Hraise (conj Horder Hcalls)))).
Defined.

Lemma status_only_moves_to_paid_witness :
  keeps_status (Price := Z) (process (payment_processor checkout_unnotified)) /\
  keeps_status (Price := Z) (send (notifier checkout_unnotified)) /\
  status (w_order (snd scenario1)) = "paid" /\
  status (w_order (snd (run_checkout checkout_unnotified (snd scenario1)))) = "paid".
Proof.
  assert (Hp : keeps_status (Price := Z)
                 (process (payment_processor checkout_unnotified)))
    by (intros o; reflexivity).
  assert (Hn : keeps_status (Price := Z) (send (notifier checkout_unnotified)))
    by (intros o; reflexivity).
  assert (Hpaid : status (w_order (snd scenario1)) = "paid") by reflexivity.
  exact (conj Hp (conj Hn (conj Hpaid
           (proj2 (status_only_moves_to_paid checkout_unnotified
                     (snd scenario1) Hp Hn) Hpaid)))).
Defined.

Lemma notifier_unused_unless_paid_witness :
  outcome (process (Price := Z) DecliningProcessor_init (w_order (fresh budi_order)))
    <> Return true /\
  run_checkout checkout_declining (fresh budi_order) =
  run_checkout checkout_declining_unnotified (fresh budi_order).
Proof.
  assert (Hno : outcome (process (Price := Z) DecliningProcessor_init
                           (w_order (fresh budi_order))) <> Return true)
    by discriminate.
  exact (conj Hno
           (notifier_unused_unless_paid DecliningProcessor_init email_service
              FailingNotifier_init (fresh budi_order) Hno)).
Defined.

Lemma plugins_swap_witness :
  outcome (payment checkout_cc (fresh andi_order)) =
    outcome (payment checkout_qris (fresh andi_order)) /\
  order_after (payment checkout_cc (fresh andi_order)) =
    order_after (payment checkout_qris (fresh andi_order)) /\
  outcome (notification checkout_cc (fresh andi_order)) =
    outcome (notification checkout_qris (fresh andi_order)) /\
  order_after (notification checkout_cc (fresh andi_order)) =
    order_after (notification checkout_qris (fresh andi_order)) /\
  fst (run_checkout checkout_cc (fresh andi_order)) =
    fst (run_checkout checkout_qris (fresh andi_order)).
Proof.
  assert (H1 : outcome (payment checkout_cc (fresh andi_order)) =
               outcome (payment checkout_qris (fresh andi_order)))
    by reflexivity.
  assert (H2 : order_after (payment checkout_cc (fresh andi_order)) =
               order_after (payment checkout_qris (fresh andi_order)))
    by reflexivity.
  assert (H3 : outcome (notification checkout_cc (fresh andi_order)) =
               outcome (notification checkout_qris (fresh andi_order)))
    by reflexivity.
  assert (H4 : order_after (notification checkout_cc (fresh andi_order)) =
               order_after (notification checkout_qris (fresh andi_order)))
    by reflexivity.
  exact (conj H1 (conj H2 (conj H3 (conj H4
           (proj1 (plugins_swap checkout_cc checkout_qris (fresh andi_order)
                     H1 H2 H3 H4)))))).
Defined.

Lemma error_record_iff_declined_witness :
  logs_no_error (Price := Z) (process (payment_processor checkout_declining)) /\
  logs_no_error (Price := Z) (send (notifier checkout_declining)) /\
  fst (run_checkout checkout_declining (fresh andi_order)) = Return false /\
  existsb is_error
    (new_log (fresh andi_order)
       (snd (run_checkout checkout_declining (fresh andi_order)))) = true.
Proof.
  assert (Hp : logs_no_error (Price := Z)
                 (process (payment_processor checkout_declining)))
    by (intros o; reflexivity).
  assert (Hn : logs_no_error (Price := Z) (send (notifier checkout_declining)))
    by (intros o; reflexivity).
  assert (Hf : fst (run_checkout checkout_declining (fresh andi_order)) = Return false)
    by reflexivity.
  exact (conj Hp (conj Hn (conj Hf
           (error_record_iff_declined checkout_declining (fresh andi_order)
              false Hp Hn Hf)))).
Defined.

Lemma order_after_n_checkouts_witness :
  read_only (Price := Z) (process (payment_processor checkout_declining)) /\
  read_only (Price := Z) (send (notifier checkout_declining)) /\
  customer_name (w_order (run_checkout_times checkout_declining 3 (fresh budi_order)))
    = "Budi" /\
  total_price (w_order (run_checkout_times checkout_declining 3 (fresh budi_order)))
    = 100000%Z.
Proof.
  assert (Hp : read_only (Price := Z) (process (payment_processor checkout_declining)))
    by (intros o; reflexivity).
  assert (Hn : read_only (Price := Z) (send (notifier checkout_declining)))
    by (intros o; reflexivity).
  pose proof (order_after_n_checkouts checkout_declining 3 (fresh budi_order) Hp Hn)
    as [Hname [Hprice _]].
  exact (conj Hp (conj Hn (conj Hname Hprice))).
Defined.

Lemma n_successful_checkouts_witness :
  always_succeeds (Price := Z) (process (payment_processor checkout_qris)) /\
  read_only (Price := Z) (process (payment_processor checkout_qris)) /\
  returns_normally (Price := Z) (send (notifier checkout_qris)) /\
  read_only (Price := Z) (send (notifier checkout_qris)) /\
  fst (run_checkout checkout_qris (fresh budi_order)) = Return true /\
  send_count (new_calls (fresh budi_order)
                (run_checkout_times checkout_qris 3 (fresh budi_order))) = 3.
Proof.
  assert (Hps : always_succeeds (Price := Z) (process (payment_processor checkout_qris)))
    by (intros o; reflexivity).
  assert (Hpr : read_only (Price := Z) (process (payment_processor checkout_qris)))
    by (intros o; reflexivity).
  assert (Hnn : returns_normally (Price := Z) (send (notifier checkout_qris)))
    by (intros o; reflexivity).
  assert (Hnr : read_only (Price := Z) (send (notifier checkout_qris)))
    by (intros o; reflexivity).
  assert (Hfirst : fst (run_checkout checkout_qris (fresh budi_order)) = Return true)
    by reflexivity.
  exact (conj Hps (conj Hpr (conj Hnn (conj Hnr (conj Hfirst
           (proj1 (n_successful_checkouts checkout_qris 3 (fresh budi_order)
                     Hps Hpr Hnn Hnr Hfirst))))))).
Defined.
